(** * vtkm::cont::ArrayHandle: residency state machine

    A shallow embedding of [vtkm/cont/ArrayHandle.h].  The handle's
    [InternalStruct] is a record; every member function is a computation
    in a small monad that threads the internal state, may end with a
    thrown [ErrorControlBadValue], a failed [VTKM_ASSERT_CONT] or the
    dereference of an empty [boost::scoped_ptr], and logs the calls made
    on the execution-array manager.  In C++ the assignments made before a
    [throw] stay in the object, so a computation that raises still
    carries the state reached at the raise. *)

From Stdlib Require Import String ZArith List Bool Lia.
Import ListNotations.
Local Open Scope Z_scope.

(** [vtkm::Id]: a signed index type; the handle only compares such
    values, it never does arithmetic on them. *)
Definition Id : Type := Z.

(** Device adapter tags are empty C++ types; a tag is identified here by
    a number. *)
Definition DeviceAdapterTag : Type := nat.

(** ** Storage (control environment) *)
Module Storage.

  (** Modelled from the spec: [vtkm/cont/Storage.h] is absent.  The spec
      describes the host-side owner of a resizable sequence with a
      current length, a shrink-only resize that fails if [n] grows, a
      release that frees to zero length, and mutable/const accessors. *)
Definition StorageType (T : Type) : Type := list T.

  (** An accessor (portal) is represented by the sequence it exposes. *)
Definition PortalType (T : Type) : Type := list T.
Definition PortalConstType (T : Type) : Type := list T.

Section Operations.
Context {T : Type}.

Definition GetNumberOfValues (s : StorageType T) : Id :=
      Z.of_nat (length s).

Definition Shrink (numberOfValues : Id) (s : StorageType T)
      : option (StorageType T) :=
      if GetNumberOfValues s <? numberOfValues then None
      else Some (firstn (Z.to_nat numberOfValues) s).

Definition ReleaseResources (s : StorageType T) : StorageType T := [].

Definition GetPortal (s : StorageType T) : PortalType T := s.
Definition GetPortalConst (s : StorageType T) : PortalConstType T := s.

Definition PortalGetNumberOfValues (p : PortalConstType T) : Id :=
      Z.of_nat (length p).
End Operations.

End Storage.

(** ** Execution-array manager (execution environment) *)
Module ExecutionManager.

  (** Modelled from the spec: [ArrayHandleExecutionManager.h] is absent.
      The spec describes the device-resident owner of a sequence for one
      device identity: identity check against a tag, copy-in for
      read-only and for in-place use, allocate without copy, copy-out
      into a Storage, release, current length, a shrink that only
      logically truncates, and accessors scoped to that device. *)
Record ExecutionManagerType (T : Type) : Type := Build {
    Device : DeviceAdapterTag;
    Array : list T
  }.
Arguments Build {T} _ _.
Arguments Device {T} _.
Arguments Array {T} _.

  (** A device-scoped accessor: the device it belongs to and the
      sequence it exposes. *)
Record PortalExecution (T : Type) : Type := Portal {
    PortalDevice : DeviceAdapterTag;
    PortalValues : list T
  }.
Arguments Portal {T} _ _.
Arguments PortalDevice {T} _.
Arguments PortalValues {T} _.

Section Operations.
Context {T : Type}.
Variable uninitialized : T.

Definition Create (d : DeviceAdapterTag) : ExecutionManagerType T :=
      Build d [].

Definition IsDeviceAdapter (m : ExecutionManagerType T)
               (d : DeviceAdapterTag) : bool :=
      Nat.eqb (Device m) d.

Definition GetNumberOfValues (m : ExecutionManagerType T) : Id :=
      Z.of_nat (length (Array m)).

Definition LoadDataForInput (m : ExecutionManagerType T)
               (data : list T) : ExecutionManagerType T :=
      Build (Device m) data.

Definition LoadDataForInPlace (m : ExecutionManagerType T)
               (data : Storage.StorageType T) : ExecutionManagerType T :=
      Build (Device m) data.

(** The control array is passed by reference for managers that share
    memory with the host; the manager modelled here owns its own
    sequence and leaves the control array alone. *)
Definition AllocateArrayForOutput (m : ExecutionManagerType T)
           (controlArray : Storage.StorageType T)
           (numberOfValues : Id) : ExecutionManagerType T :=
      Build (Device m) (repeat uninitialized (Z.to_nat numberOfValues)).

Definition RetrieveOutputData (m : ExecutionManagerType T)
      : Storage.StorageType T :=
      Array m.

Definition Shrink (numberOfValues : Id) (m : ExecutionManagerType T)
      : ExecutionManagerType T :=
      Build (Device m) (firstn (Z.to_nat numberOfValues) (Array m)).

Definition ReleaseResources (m : ExecutionManagerType T)
      : ExecutionManagerType T :=
      Build (Device m) [].

Definition GetPortalExecution (m : ExecutionManagerType T)
      : PortalExecution T :=
      Portal (Device m) (Array m).

Definition GetPortalConstExecution (m : ExecutionManagerType T)
      : PortalExecution T :=
      Portal (Device m) (Array m).
End Operations.

End ExecutionManager.

(** ** Errors, outcomes and the log of manager calls *)

(** The [ErrorControlBadValue] exceptions thrown by the handle, one
    constructor per [throw] statement's message. *)
Inductive ErrorControlBadValue : Type :=
| ReadOnlyControlPortal
| ContainsNoData
| ShrinkCannotGrow
| NoDataWhenPrepareForInput
| InPlaceWithUserArrays.

Definition what (e : ErrorControlBadValue) : string :=
  match e with
  | ReadOnlyControlPortal => "ArrayHandle has a read-only control portal."
  | ContainsNoData => "ArrayHandle contains no data."
  | ShrinkCannotGrow => "ArrayHandle::Shrink cannot be used to grow array."
  | NoDataWhenPrepareForInput =>
      "ArrayHandle has no data when PrepareForInput called."
  | InPlaceWithUserArrays =>
      "In place execution cannot be used with an ArrayHandle that has user arrays because this might write data back into user space unexpectedly.  Copy the data to a new array first."
  end.

(** The three error kinds of the specification. *)
Inductive ErrorKind : Type :=
| NoDataError
| ReadOnlyError
| GrowNotAllowedError.

Definition kind (e : ErrorControlBadValue) : ErrorKind :=
  match e with
  | ReadOnlyControlPortal => ReadOnlyError
  | ContainsNoData => NoDataError
  | ShrinkCannotGrow => GrowNotAllowedError
  | NoDataWhenPrepareForInput => NoDataError
  | InPlaceWithUserArrays => ReadOnlyError
  end.

(** How a member function can end other than by returning: a thrown
    exception, a failed [VTKM_ASSERT_CONT], [operator->] on an empty
    [scoped_ptr], or a failure inside the Storage's own [Shrink]. *)
Inductive Failure : Type :=
| Throw (e : ErrorControlBadValue)
| AssertFailed
| NullDereference
| StorageShrinkFailed.

Inductive Outcome (A : Type) : Type :=
| Return (a : A)
| Raise (f : Failure).
Arguments Return {A} a.
Arguments Raise {A} f.

(** Calls on the execution-array manager, in the order they are made. *)
Inductive Event : Type :=
| ManagerCreated (d : DeviceAdapterTag)
| ManagerDeleted (d : DeviceAdapterTag)
| LoadedForInput (d : DeviceAdapterTag)
| LoadedForInPlace (d : DeviceAdapterTag)
| AllocatedForOutput (d : DeviceAdapterTag) (n : Id)
| RetrievedOutputData (d : DeviceAdapterTag)
| ShrunkExecution (d : DeviceAdapterTag) (n : Id)
| ReleasedExecution (d : DeviceAdapterTag).

Definition is_copy_to_device (e : Event) : bool :=
  match e with
  | LoadedForInput _ | LoadedForInPlace _ => true
  | _ => false
  end.

Definition copies_to_device (l : list Event) : nat :=
  length (filter is_copy_to_device l).

(** ** The array handle *)
Module ArrayHandle.

Section Definitions.
Context {T : Type}.
Variable uninitialized : T.

(** [ArrayHandle::InternalStruct].  [ExecutionArray] is a
    [boost::scoped_ptr]: [None] is the null pointer.  Copies of a handle
    share one such block through a [shared_ptr], so one record stands for
    the handle and all its copies. *)
Record InternalStruct : Type := MkInternals {
  UserPortal : Storage.PortalConstType T;
  UserPortalValid : bool;
  ControlArray : Storage.StorageType T;
  ControlArrayValid : bool;
  ExecutionArray : option (ExecutionManager.ExecutionManagerType T);
  ExecutionArrayValid : bool
}.

Definition set_UserPortalValid (b : bool) (h : InternalStruct) :=
  MkInternals (UserPortal h) b (ControlArray h) (ControlArrayValid h)
              (ExecutionArray h) (ExecutionArrayValid h).

Definition set_ControlArray (s : Storage.StorageType T) (h : InternalStruct) :=
  MkInternals (UserPortal h) (UserPortalValid h) s (ControlArrayValid h)
              (ExecutionArray h) (ExecutionArrayValid h).

Definition set_ControlArrayValid (b : bool) (h : InternalStruct) :=
  MkInternals (UserPortal h) (UserPortalValid h) (ControlArray h) b
              (ExecutionArray h) (ExecutionArrayValid h).

Definition set_ExecutionArray
           (m : option (ExecutionManager.ExecutionManagerType T))
           (h : InternalStruct) :=
  MkInternals (UserPortal h) (UserPortalValid h) (ControlArray h)
              (ControlArrayValid h) m (ExecutionArrayValid h).

Definition set_ExecutionArrayValid (b : bool) (h : InternalStruct) :=
  MkInternals (UserPortal h) (UserPortalValid h) (ControlArray h)
              (ControlArrayValid h) (ExecutionArray h) b.

(** *** The monad of member functions *)

Record Run (A : Type) : Type := MkRun {
  result : Outcome A;
  after : InternalStruct;
  events : list Event
}.
Arguments MkRun {A} _ _ _.
Arguments result {A} _.
Arguments after {A} _.
Arguments events {A} _.

Definition M (A : Type) : Type := InternalStruct -> Run A.

Definition ret {A : Type} (a : A) : M A :=
  fun h => MkRun (Return a) h [].

Definition bind {A B : Type} (c : M A) (k : A -> M B) : M B :=
  fun h =>
    match c h with
    | MkRun (Return a) h1 ev1 =>
        match k a h1 with
        | MkRun o h2 ev2 => MkRun o h2 (ev1 ++ ev2)
        end
    | MkRun (Raise f) h1 ev1 => MkRun (Raise f) h1 ev1
    end.

Definition fmap {A B : Type} (f : A -> B) (c : M A) : M B :=
  bind c (fun a => ret (f a)).

Definition get : M InternalStruct :=
  fun h => MkRun (Return h) h [].

Definition modify (f : InternalStruct -> InternalStruct) : M unit :=
  fun h => MkRun (Return tt) (f h) [].

Definition raise {A : Type} (f : Failure) : M A :=
  fun h => MkRun (Raise f) h [].

Definition throw {A : Type} (e : ErrorControlBadValue) : M A :=
  raise (Throw e).

Definition emit (e : Event) : M unit :=
  fun h => MkRun (Return tt) h [e].

Definition VTKM_ASSERT_CONT (condition : bool) : M unit :=
  if condition then ret tt else raise AssertFailed.

(** [this->Internals->ExecutionArray->...]: [operator->] of the scoped
    pointer. *)
Definition deref {A : Type} (p : option A) : M A :=
  match p with
  | Some a => ret a
  | None => raise NullDereference
  end.

Notation "x <- c ;; k" := (bind c (fun x => k))
  (at level 61, c at next level, right associativity).
Notation "c ;; k" := (bind c (fun _ => k))
  (at level 61, right associativity).

(** One call on the manager behind [ExecutionArray]: dereference the
    pointer, log the call, store the manager's new state. *)
Definition on_ExecutionArray
           (ev : DeviceAdapterTag -> Event)
           (f : ExecutionManager.ExecutionManagerType T ->
                ExecutionManager.ExecutionManagerType T) : M unit :=
  h <- get ;;
  m <- deref (ExecutionArray h) ;;
  emit (ev (ExecutionManager.Device m)) ;;
  modify (set_ExecutionArray (Some (f m))).

(** *** Constructors *)

Definition ArrayHandle_default : InternalStruct :=
  MkInternals [] false [] false None false.

Definition ArrayHandle_userData (userData : Storage.PortalConstType T)
  : InternalStruct :=
  MkInternals userData true [] false None false.

Definition ArrayHandle_storage (storage : Storage.StorageType T)
  : InternalStruct :=
  MkInternals [] false storage true None false.

Definition make_ArrayHandle (array : list T) : InternalStruct :=
  ArrayHandle_userData array.

(** *** Member functions *)

Definition SyncControlArray : M unit :=
  h <- get ;;
  if negb (UserPortalValid h) && negb (ControlArrayValid h) then
    m <- deref (ExecutionArray h) ;;
    emit (RetrievedOutputData (ExecutionManager.Device m)) ;;
    modify (set_ControlArray (ExecutionManager.RetrieveOutputData m)) ;;
    modify (set_ControlArrayValid true)
  else
    VTKM_ASSERT_CONT (negb (UserPortalValid h) || negb (ControlArrayValid h)).

Definition ReleaseResourcesExecution : M unit :=
  h <- get ;;
  if ExecutionArrayValid h then
    on_ExecutionArray ReleasedExecution ExecutionManager.ReleaseResources ;;
    modify (set_ExecutionArrayValid false)
  else ret tt.

Definition GetPortalControl : M (Storage.PortalType T) :=
  SyncControlArray ;;
  h <- get ;;
  if UserPortalValid h then throw ReadOnlyControlPortal
  else if ControlArrayValid h then
    ReleaseResourcesExecution ;;
    h' <- get ;;
    ret (Storage.GetPortal (ControlArray h'))
  else throw ContainsNoData.

Definition GetPortalConstControl : M (Storage.PortalConstType T) :=
  SyncControlArray ;;
  h <- get ;;
  if UserPortalValid h then ret (UserPortal h)
  else if ControlArrayValid h then
    ret (Storage.GetPortalConst (ControlArray h))
  else throw ContainsNoData.

Definition GetNumberOfValues : M Id :=
  h <- get ;;
  if UserPortalValid h then
    ret (Storage.PortalGetNumberOfValues (UserPortal h))
  else if ControlArrayValid h then
    ret (Storage.GetNumberOfValues (ControlArray h))
  else if ExecutionArrayValid h then
    m <- deref (ExecutionArray h) ;;
    ret (ExecutionManager.GetNumberOfValues m)
  else ret 0.

Definition Shrink (numberOfValues : Id) : M unit :=
  originalNumberOfValues <- GetNumberOfValues ;;
  (if numberOfValues <? originalNumberOfValues then
     h <- get ;;
     (if UserPortalValid h then throw ReadOnlyControlPortal else ret tt) ;;
     (if ControlArrayValid h then
        match Storage.Shrink numberOfValues (ControlArray h) with
        | Some s => modify (set_ControlArray s)
        | None => raise StorageShrinkFailed
        end
      else ret tt) ;;
     (if ExecutionArrayValid h then
        on_ExecutionArray (fun d => ShrunkExecution d numberOfValues)
                          (ExecutionManager.Shrink numberOfValues)
      else ret tt)
   else if numberOfValues =? originalNumberOfValues then ret tt
   else throw ShrinkCannotGrow) ;;
  n <- GetNumberOfValues ;;
  VTKM_ASSERT_CONT (n =? numberOfValues).

Definition ReleaseResources : M unit :=
  ReleaseResourcesExecution ;;
  modify (set_UserPortalValid false) ;;
  h <- get ;;
  if ControlArrayValid h then
    modify (set_ControlArray (Storage.ReleaseResources (ControlArray h))) ;;
    modify (set_ControlArrayValid false)
  else ret tt.

(** The tail of [PrepareForDevice] after its [if]: the two assertions
    and the [reset(new ...)]. *)
Definition PrepareForDevice_create (d : DeviceAdapterTag) : M unit :=
  h <- get ;;
  VTKM_ASSERT_CONT (match ExecutionArray h with None => true | Some _ => false end) ;;
  VTKM_ASSERT_CONT (negb (ExecutionArrayValid h)) ;;
  emit (ManagerCreated d) ;;
  modify (set_ExecutionArray (Some (ExecutionManager.Create d))).

Definition PrepareForDevice (d : DeviceAdapterTag) : M unit :=
  h <- get ;;
  match ExecutionArray h with
  | Some m =>
      if ExecutionManager.IsDeviceAdapter m d then ret tt
      else
        SyncControlArray ;;
        emit (ManagerDeleted (ExecutionManager.Device m)) ;;
        modify (set_ExecutionArray None) ;;
        modify (set_ExecutionArrayValid false) ;;
        PrepareForDevice_create d
  | None => PrepareForDevice_create d
  end.

Definition PrepareForInput (d : DeviceAdapterTag)
  : M (ExecutionManager.PortalExecution T) :=
  h <- get ;;
  (if ExecutionArrayValid h then ret tt
   else if UserPortalValid h then
     VTKM_ASSERT_CONT (negb (ControlArrayValid h)) ;;
     PrepareForDevice d ;;
     h1 <- get ;;
     on_ExecutionArray LoadedForInput
       (fun m => ExecutionManager.LoadDataForInput m (UserPortal h1)) ;;
     modify (set_ExecutionArrayValid true)
   else if ControlArrayValid h then
     PrepareForDevice d ;;
     h1 <- get ;;
     on_ExecutionArray LoadedForInput
       (fun m => ExecutionManager.LoadDataForInput m (ControlArray h1)) ;;
     modify (set_ExecutionArrayValid true)
   else throw NoDataWhenPrepareForInput) ;;
  h' <- get ;;
  m <- deref (ExecutionArray h') ;;
  ret (ExecutionManager.GetPortalConstExecution m).

Definition PrepareForOutput (numberOfValues : Id) (d : DeviceAdapterTag)
  : M (ExecutionManager.PortalExecution T) :=
  modify (set_UserPortalValid false) ;;
  modify (set_ControlArrayValid false) ;;
  PrepareForDevice d ;;
  h <- get ;;
  on_ExecutionArray (fun d' => AllocatedForOutput d' numberOfValues)
    (fun m => ExecutionManager.AllocateArrayForOutput
                uninitialized m (ControlArray h) numberOfValues) ;;
  modify (set_ExecutionArrayValid true) ;;
  h' <- get ;;
  m <- deref (ExecutionArray h') ;;
  ret (ExecutionManager.GetPortalExecution m).

Definition PrepareForInPlace (d : DeviceAdapterTag)
  : M (ExecutionManager.PortalExecution T) :=
  h <- get ;;
  (if UserPortalValid h then throw InPlaceWithUserArrays else ret tt) ;;
  (if ExecutionArrayValid h then ret tt
   else if ControlArrayValid h then
     PrepareForDevice d ;;
     h1 <- get ;;
     on_ExecutionArray LoadedForInPlace
       (fun m => ExecutionManager.LoadDataForInPlace m (ControlArray h1)) ;;
     modify (set_ExecutionArrayValid true)
   else throw NoDataWhenPrepareForInput) ;;
  modify (set_ControlArrayValid false) ;;
  h' <- get ;;
  m <- deref (ExecutionArray h') ;;
  ret (ExecutionManager.GetPortalExecution m).

(** *** The public interface as one type of calls

    The access specifiers after the first [public:] are commented out in
    the header, so [SyncControlArray] and [PrepareForDevice] can be
    called from outside as well. *)

Inductive Op : Type :=
| CallGetPortalControl
| CallGetPortalConstControl
| CallGetNumberOfValues
| CallShrink (numberOfValues : Id)
| CallReleaseResourcesExecution
| CallReleaseResources
| CallPrepareForInput (d : DeviceAdapterTag)
| CallPrepareForOutput (numberOfValues : Id) (d : DeviceAdapterTag)
| CallPrepareForInPlace (d : DeviceAdapterTag)
| CallSyncControlArray
| CallPrepareForDevice (d : DeviceAdapterTag).

Inductive Value : Type :=
| Void
| IdValue (n : Id)
| ControlPortal (p : list T)
| ExecutionPortal (p : ExecutionManager.PortalExecution T).

Definition call (op : Op) : M Value :=
  match op with
  | CallGetPortalControl => fmap ControlPortal GetPortalControl
  | CallGetPortalConstControl => fmap ControlPortal GetPortalConstControl
  | CallGetNumberOfValues => fmap IdValue GetNumberOfValues
  | CallShrink n => fmap (fun _ => Void) (Shrink n)
  | CallReleaseResourcesExecution =>
      fmap (fun _ => Void) ReleaseResourcesExecution
  | CallReleaseResources => fmap (fun _ => Void) ReleaseResources
  | CallPrepareForInput d => fmap ExecutionPortal (PrepareForInput d)
  | CallPrepareForOutput n d => fmap ExecutionPortal (PrepareForOutput n d)
  | CallPrepareForInPlace d => fmap ExecutionPortal (PrepareForInPlace d)
  | CallSyncControlArray => fmap (fun _ => Void) SyncControlArray
  | CallPrepareForDevice d => fmap (fun _ => Void) (PrepareForDevice d)
  end.

(** The handles a program can hold: built by one of the three
    constructors, then changed by calls (whatever their outcome, since a
    thrown exception can be caught and the handle used again) and by
    writes of the caller through a portal it was given, which change
    values in place but no length. *)
Inductive reachable : InternalStruct -> Prop :=
| reach_default : reachable ArrayHandle_default
| reach_userData : forall userData, reachable (ArrayHandle_userData userData)
| reach_storage : forall storage, reachable (ArrayHandle_storage storage)
| reach_call : forall op h, reachable h -> reachable (after (call op h))
| reach_write_control : forall h values,
    reachable h ->
    length values = length (ControlArray h) ->
    reachable (set_ControlArray values h)
| reach_write_execution : forall h m values,
    reachable h ->
    ExecutionArray h = Some m ->
    length values = length (ExecutionManager.Array m) ->
    reachable (set_ExecutionArray
                 (Some (ExecutionManager.Build (ExecutionManager.Device m) values)) h).

(** The logical length in the words of Invariant I3: the length of the
    external view if it is valid, else of the host storage if it is
    valid, else of the device manager if it is valid, else 0. *)
Definition logical_length (h : InternalStruct) : Id :=
  if UserPortalValid h then Z.of_nat (length (UserPortal h))
  else if ControlArrayValid h then Z.of_nat (length (ControlArray h))
  else if ExecutionArrayValid h then
    match ExecutionArray h with
    | Some m => Z.of_nat (length (ExecutionManager.Array m))
    | None => 0
    end
  else 0.

End Definitions.

Arguments InternalStruct T : clear implicits.
Arguments MkRun {T A} _ _ _.
Arguments result {T A} _.
Arguments after {T A} _.
Arguments events {T A} _.

End ArrayHandle.

(** ** Invariants and example handles *)

Import ArrayHandle.

Section Invariants.
Context {T : Type}.

(** Invariant I1: the user portal and the control array are not both
    valid. *)
Definition exclusive_host_views (h : InternalStruct T) : Prop :=
  ~ (UserPortalValid h = true /\ ControlArrayValid h = true).

(** A valid execution array has a manager behind the scoped pointer. *)
Definition manager_present (h : InternalStruct T) : Prop :=
  ExecutionArrayValid h = true -> ExecutionArray h <> None.

(** What [Shrink] leaves behind when it truncates. *)
Definition shrunk (n : Id) (h : InternalStruct T) : InternalStruct T :=
  MkInternals
    (UserPortal h) (UserPortalValid h)
    (if ControlArrayValid h then firstn (Z.to_nat n) (ControlArray h)
     else ControlArray h)
    (ControlArrayValid h)
    (if ExecutionArrayValid h
     then option_map (ExecutionManager.Shrink n) (ExecutionArray h)
     else ExecutionArray h)
    (ExecutionArrayValid h).

(** The round trip of a handle [h0] built from [data]: prepare for input
    on device [d], then ask for the const control portal. *)
Definition round_trip (h0 : InternalStruct T) (data : list T)
           (d : DeviceAdapterTag) : Prop :=
  let r1 := PrepareForInput d h0 in
  let r2 := GetPortalConstControl (after r1) in
  let L := Z.of_nat (length data) in
  result r1 = Return (ExecutionManager.Portal d data) /\
  result r2 = Return data /\
  result (GetNumberOfValues h0) = Return L /\
  result (GetNumberOfValues (after r1)) = Return L /\
  result (GetNumberOfValues (after r2)) = Return L.

End Invariants.

(** Handles over [Z] used to instantiate the statements below. *)
Definition host_handle : InternalStruct Z := ArrayHandle_storage [1; 2; 3].

Definition user_handle : InternalStruct Z := make_ArrayHandle [1; 2; 3].

(** A handle whose only valid view is the device one: an empty handle
    prepared for an output of two values on device 0. *)
Definition device_only_handle : InternalStruct Z :=
  after (PrepareForOutput 0 2 0%nat ArrayHandle_default).

(** A host handle mirrored on device 0. *)
Definition mirrored_handle : InternalStruct Z :=
  after (PrepareForInput 0%nat host_handle).

(** ** Writes of the caller and auxiliary notions *)

Section Callers.
Context {T : Type}.

(** The caller stores [values] through a portal over the control array
    ([GetPortalControl]): the values change in place. *)
Definition write_ControlPortal (values : list T) (h : InternalStruct T)
  : InternalStruct T :=
  set_ControlArray values h.

(** The caller stores [values] through a portal over the execution
    array ([PrepareForOutput], [PrepareForInPlace]). *)
Definition write_ExecutionPortal (values : list T) (h : InternalStruct T)
  : InternalStruct T :=
  match ExecutionArray h with
  | Some m =>
      set_ExecutionArray
        (Some (ExecutionManager.Build (ExecutionManager.Device m) values)) h
  | None => h
  end.

(** Some view of the data is valid. *)
Definition has_data (h : InternalStruct T) : bool :=
  UserPortalValid h || ControlArrayValid h || ExecutionArrayValid h.

(** The manager, when there is one, is the one of device [d]. *)
Definition unbound_or_bound_to (d : DeviceAdapterTag) (h : InternalStruct T)
  : bool :=
  match ExecutionArray h with
  | Some m => ExecutionManager.IsDeviceAdapter m d
  | None => true
  end.

Definition is_retrieval (e : Event) : bool :=
  match e with
  | RetrievedOutputData _ => true
  | _ => false
  end.

End Callers.

(** The caller's array [1; 2; 3] mirrored on device 0. *)
Definition user_mirrored_handle : InternalStruct Z :=
  after (PrepareForInput 0%nat user_handle).

(** ** The list-tag unit test's comparison *)
Module UnitTestListTag.

(** [static_cast<int>] of a [size_t]: the value modulo 2^32, read as a
    signed 32-bit integer. *)
Definition static_cast_int (z : Z) : Z :=
  (z + 2 ^ 31) mod 2 ^ 32 - 2 ^ 31.

(** The outcome of a test routine: [None] when every [VTKM_TEST_ASSERT]
    held, otherwise the message of the first one that failed. *)
Definition TestOutcome : Type := option string.

(** The [for] loop of [CheckSame], from [index] on, with [count]
    iterations left. *)
Fixpoint CheckSame_loop (expected found : list Z) (index count : nat)
  : TestOutcome :=
  match count with
  | O => None
  | S count' =>
      if nth index expected 0 =? nth index found 0
      then CheckSame_loop expected found (S index) count'
      else Some "Got wrong type."%string
  end.

(** [CheckSame(expected, found)]: [expected] is a [vtkm::Vec<int,N>],
    given by its [N] components. *)
Definition CheckSame (expected found : list Z) : TestOutcome :=
  if static_cast_int (Z.of_nat (length found)) =? Z.of_nat (length expected)
  then CheckSame_loop expected found 0 (length expected)
  else Some "Got wrong number of items."%string.

End UnitTestListTag.


Ltac eval_handle :=
  cbv beta iota zeta delta
    [call fmap PrepareForInPlace PrepareForOutput PrepareForInput
     PrepareForDevice PrepareForDevice_create ReleaseResources Shrink
     GetNumberOfValues GetPortalConstControl GetPortalControl
     ReleaseResourcesExecution SyncControlArray on_ExecutionArray
     VTKM_ASSERT_CONT deref throw raise emit modify get bind ret
     set_UserPortalValid set_ControlArray set_ControlArrayValid
     set_ExecutionArray set_ExecutionArrayValid
     UserPortal UserPortalValid ControlArray ControlArrayValid
     ExecutionArray ExecutionArrayValid result after events
     app negb andb orb].

Ltac split_if :=
  repeat match goal with
    | |- context [if ?b then _ else _] => destruct b eqn:?; eval_handle
    | |- context [match ?o with Some _ => _ | None => _ end] =>
        destruct o eqn:?; eval_handle
    end.

(** Case analysis on the three flags and the scoped pointer. *)
Ltac by_state h :=
  destruct h as [up [|] ca [|] [m|] [|]]; eval_handle.


(** Unfolding of the manager's operations and case analysis on the
    device a manager is bound to. *)
Ltac eval_manager :=
  cbv beta iota zeta delta
    [ExecutionManager.IsDeviceAdapter ExecutionManager.ReleaseResources
     ExecutionManager.Shrink ExecutionManager.RetrieveOutputData
     ExecutionManager.LoadDataForInput ExecutionManager.LoadDataForInPlace
     ExecutionManager.AllocateArrayForOutput ExecutionManager.Create
     ExecutionManager.GetPortalExecution
     ExecutionManager.GetPortalConstExecution
     ExecutionManager.GetNumberOfValues
     ExecutionManager.Device ExecutionManager.Array] in *.

Ltac by_device d :=
  repeat match goal with
    | |- context [Nat.eqb ?x d] =>
        destruct (Nat.eqb_spec x d); [subst |]; eval_handle
    end.

Ltac by_state_and_manager h :=
  destruct h as [up [|] ca [|] [[md ma]|] [|]]; eval_handle; eval_manager.

(** ** Properties *)

Section Properties.
Context {T : Type}.
Variable uninitialized : T.

(** *** Invariants of the reachable handles *)

Lemma call_exclusive_host_views (op : Op) (h : InternalStruct T) :
  exclusive_host_views h -> exclusive_host_views (after (call uninitialized op h)).
Proof.
  unfold exclusive_host_views.
  destruct op; by_state h; split_if; intros H [H1 H2];
    try discriminate; apply H; split; reflexivity.
Qed.

Lemma call_manager_present (op : Op) (h : InternalStruct T) :
  manager_present h -> manager_present (after (call uninitialized op h)).
Proof.
  unfold manager_present.
  destruct op; by_state h; split_if; intros H H1;
    try discriminate; try (apply H; reflexivity).
Qed.

Lemma reachable_exclusive_host_views (h : InternalStruct T) :
  reachable uninitialized h -> exclusive_host_views h.
Proof.
  induction 1 as [ | | | op h _ IH | h values _ IH _ | h m values _ IH _ _ ].
  - intros [H _]; discriminate.
  - intros [_ H]; discriminate.
  - intros [H _]; discriminate.
  - now apply call_exclusive_host_views.
  - exact IH.
  - exact IH.
Qed.

Lemma reachable_manager_present (h : InternalStruct T) :
  reachable uninitialized h -> manager_present h.
Proof.
  induction 1 as [ | | | op h _ IH | h values _ IH _ | h m values _ IH _ _ ].
  - intros H; discriminate.
  - intros H; discriminate.
  - intros H; discriminate.
  - now apply call_manager_present.
  - exact IH.
  - intros _; cbn; discriminate.
Qed.


(** *** The length query *)

(** C6. For every reachable handle the length query returns the length
    of the external view if it is valid, else that of the host storage
    if it is valid, else that of the device manager if it is valid, else
    0; it returns normally, makes no call on the manager and leaves the
    state as it was. *)
Theorem GetNumberOfValues_logical_length (h : InternalStruct T) :
  reachable uninitialized h ->
  GetNumberOfValues h = MkRun (Return (logical_length h)) h [].
Proof.
  intros R. pose proof (reachable_manager_present h R) as P.
  unfold manager_present, logical_length in *.
  by_state h; try reflexivity.
  exfalso; now apply P.
Qed.

(** *** Failures leave the handle untouched *)

(** C7. Whenever a call throws one of the handle's errors (each is a
    NoDataError, a ReadOnlyError or a GrowNotAllowedError), the state
    after the call is the state before it, flags and views alike, and no
    call was made on the manager. *)
Theorem throw_leaves_state_untouched
        (op : Op) (h : InternalStruct T) (e : ErrorControlBadValue) :
  result (call uninitialized op h) = Raise (Throw e) ->
  after (call uninitialized op h) = h /\
  events (call uninitialized op h) = [] /\
  (kind e = NoDataError \/ kind e = ReadOnlyError \/
   kind e = GrowNotAllowedError).
Proof.
  intros H. split; [| split].
  - revert H. destruct op; by_state h; split_if; intros;
      try discriminate; reflexivity.
  - revert H. destruct op; by_state h; split_if; intros;
      try discriminate; reflexivity.
  - destruct e; cbn; auto.
Qed.

(** *** Invariant I1 *)

(** C8. On every handle reachable from a constructor through any
    sequence of calls, the user portal and the control array are never
    both valid. *)
Theorem UserPortal_ControlArray_never_both_valid (h : InternalStruct T) :
  reachable uninitialized h ->
  ~ (UserPortalValid h = true /\ ControlArrayValid h = true).
Proof.
  exact (reachable_exclusive_host_views h).
Qed.

(** *** The execution array behind a valid flag *)

(** C10. On every reachable handle a valid execution array has a manager
    behind the pointer, so the length query, [Shrink],
    [ReleaseResourcesExecution] and [ReleaseResources] never dereference
    a null [ExecutionArray]. *)
Theorem ExecutionArrayValid_implies_manager (h : InternalStruct T) :
  reachable uninitialized h ->
  (ExecutionArrayValid h = true -> exists m, ExecutionArray h = Some m) /\
  result (GetNumberOfValues h) <> Raise NullDereference /\
  (forall n, result (Shrink n h) <> Raise NullDereference) /\
  result (ReleaseResourcesExecution h) <> Raise NullDereference /\
  result (ReleaseResources h) <> Raise NullDereference.
Proof.
  intros R. pose proof (reachable_manager_present h R) as P.
  unfold manager_present in P.
  repeat split.
  - intros V. destruct (ExecutionArray h) as [m|] eqn:E.
    + now exists m.
    + exfalso; now apply P.
  - revert P; by_state h; intros P; try discriminate; exfalso; apply P; reflexivity.
  - intros n. revert P; by_state h; split_if; intros P;
      try discriminate; exfalso; apply P; reflexivity.
  - revert P; by_state h; intros P; try discriminate; exfalso; apply P; reflexivity.
  - revert P; by_state h; intros P; try discriminate; exfalso; apply P; reflexivity.
Qed.

(** *** Preparing twice for input *)

(** C9. Two calls of [PrepareForInput] for the same device in a row copy
    to the device at most once; the second call makes no call on the
    manager, leaves the whole state (the execution-valid flag in
    particular) as the first left it and ends as the first did, with
    the same accessor when it returns one. *)
Theorem PrepareForInput_twice (d : DeviceAdapterTag) (h : InternalStruct T) :
  let r1 := PrepareForInput d h in
  let r2 := PrepareForInput d (after r1) in
  (copies_to_device (events r1 ++ events r2) <= 1)%nat /\
  events r2 = [] /\
  ExecutionArrayValid (after r2) = ExecutionArrayValid (after r1) /\
  after r2 = after r1 /\
  result r2 = result r1.
Proof.
  by_state h; split_if; cbn; repeat split; lia.
Qed.


(** *** Shrink *)

Lemma firstn_length_Z {A : Type} (n : Id) (l : list A) :
  0 <= n <= Z.of_nat (length l) ->
  Z.of_nat (length (firstn (Z.to_nat n) l)) = n.
Proof.
  intros H. rewrite length_firstn. lia.
Qed.

(** C4 (amended). On a reachable handle of logical length [m], [Shrink n] throws
    the grow error when [n > m]; does nothing when [n = m], whatever the
    flags; and when [n < m] throws the read-only error if the user
    portal is valid, and otherwise (for a count [0 <= n]) truncates the
    control array if it is valid and the execution array if it is valid,
    after which the length is [n]. *)
Theorem Shrink_contract (n : Id) (h : InternalStruct T) :
  reachable uninitialized h ->
  (logical_length h < n ->
   kind ShrinkCannotGrow = GrowNotAllowedError /\
   Shrink n h = MkRun (Raise (Throw ShrinkCannotGrow)) h []) /\
  (n = logical_length h -> Shrink n h = MkRun (Return tt) h []) /\
  (n < logical_length h -> UserPortalValid h = true ->
   kind ReadOnlyControlPortal = ReadOnlyError /\
   Shrink n h = MkRun (Raise (Throw ReadOnlyControlPortal)) h []) /\
  (0 <= n < logical_length h -> UserPortalValid h = false ->
   result (Shrink n h) = Return tt /\
   after (Shrink n h) = shrunk n h /\
   result (GetNumberOfValues (after (Shrink n h))) = Return n).
Proof.
  intros R. pose proof (reachable_manager_present h R) as P.
  unfold manager_present in P. revert P.
  unfold logical_length, shrunk.
  by_state h; intros P; repeat split; intros; try discriminate;
    try (exfalso; apply P; reflexivity);
    cbv [Storage.Shrink Storage.GetNumberOfValues
         Storage.PortalGetNumberOfValues ExecutionManager.GetNumberOfValues
         ExecutionManager.Shrink ExecutionManager.Array option_map] in *;
    repeat match goal with
      | |- context [?a <? ?b] => destruct (Z.ltb_spec a b); eval_handle
      | |- context [?a =? ?b] => destruct (Z.eqb_spec a b); eval_handle
      end;
    try lia; try reflexivity;
    rewrite firstn_length_Z in * by lia; solve [lia | reflexivity].
Qed.

(** *** Round trip through the device *)

(** C5. A handle built from host data of length [L]: over the caller's
    array or over a populated storage: prepared for input on any
    device and then asked for its const control portal gives back the
    original values, the device accessor holds them too, and the length
    query answers [L] before, between and after the two calls. *)
Theorem PrepareForInput_round_trip (data : list T) (d : DeviceAdapterTag) :
  round_trip (make_ArrayHandle data) data d /\
  round_trip (ArrayHandle_storage data) data d.
Proof.
  unfold round_trip, make_ArrayHandle, ArrayHandle_userData,
    ArrayHandle_storage.
  split; eval_handle; repeat split; reflexivity.
Qed.

(** *** The mutable control portal *)

(** C3 (amended). On a reachable handle [GetPortalControl]
    throws the read-only error when the user portal is valid; when
    neither host view is valid but the execution array is, it does not
    fail: it retrieves the device data into the control array, marks it
    valid, releases the execution resources and returns a portal over
    the retrieved values. *)
Theorem GetPortalControl_synchronizes (h : InternalStruct T) :
  reachable uninitialized h ->
  (UserPortalValid h = true ->
   kind ReadOnlyControlPortal = ReadOnlyError /\
   GetPortalControl h = MkRun (Raise (Throw ReadOnlyControlPortal)) h []) /\
  (UserPortalValid h = false -> ControlArrayValid h = false ->
   ExecutionArrayValid h = true ->
   exists m,
     ExecutionArray h = Some m /\
     GetPortalControl h =
       MkRun (Return (ExecutionManager.Array m))
             (MkInternals (UserPortal h) false (ExecutionManager.Array m) true
                (Some (ExecutionManager.ReleaseResources m)) false)
             [RetrievedOutputData (ExecutionManager.Device m);
              ReleasedExecution (ExecutionManager.Device m)]).
Proof.
  intros R.
  pose proof (reachable_manager_present h R) as P.
  pose proof (reachable_exclusive_host_views h R) as X.
  unfold manager_present, exclusive_host_views in *. revert P X.
  by_state h; intros P X; split; intros; try discriminate;
    try (exfalso; apply X; split; reflexivity);
    try (exfalso; apply P; reflexivity);
    try (split; reflexivity).
  exists m; split; reflexivity.
Qed.

(** The branch of the two host accessors that throws the no-data error
    is never taken: [SyncControlArray] either validates the control
    array or does not return. *)
Lemma host_accessors_never_throw_no_data
      (h : InternalStruct T) (e : ErrorControlBadValue) :
  (result (GetPortalControl h) = Raise (Throw e) ->
   e = ReadOnlyControlPortal) /\
  result (GetPortalConstControl h) <> Raise (Throw e).
Proof.
  by_state h; split; intros; try discriminate; congruence.
Qed.

(** *** A handle with no data *)

(** C1 (behaviour of the code). On a default-constructed handle the length
    is 0 and both device preparations throw the no-data error, but the
    two host accessors dereference the null [ExecutionArray] inside
    [SyncControlArray] before they reach their own no-data [throw]. *)
Theorem default_handle_has_no_data :
  GetNumberOfValues (@ArrayHandle_default T)
    = MkRun (Return 0) ArrayHandle_default [] /\
  (forall d, PrepareForInput d (@ArrayHandle_default T)
    = MkRun (Raise (Throw NoDataWhenPrepareForInput)) ArrayHandle_default []) /\
  (forall d, PrepareForInPlace d (@ArrayHandle_default T)
    = MkRun (Raise (Throw NoDataWhenPrepareForInput)) ArrayHandle_default []) /\
  kind NoDataWhenPrepareForInput = NoDataError /\
  GetPortalControl (@ArrayHandle_default T)
    = MkRun (Raise NullDereference) ArrayHandle_default [] /\
  GetPortalConstControl (@ArrayHandle_default T)
    = MkRun (Raise NullDereference) ArrayHandle_default [].
Proof.
  repeat split.
Qed.

(** *** Preparing for input on a second device *)

(** When the execution array is already valid, [PrepareForInput] skips
    [PrepareForDevice] whatever the tag: after a handle over host data
    was prepared on [d1], preparing it on [d2] makes no call on the
    manager and the manager stays the one bound to [d1]. *)
Lemma PrepareForInput_valid_skips_PrepareForDevice
      (data : list T) (d1 d2 : DeviceAdapterTag) :
  let r1 := PrepareForInput d1 (ArrayHandle_storage data) in
  let r2 := PrepareForInput d2 (after r1) in
  events r1 = [ManagerCreated d1; LoadedForInput d1] /\
  events r2 = [] /\
  after r2 = after r1 /\
  ExecutionArray (after r2) = Some (ExecutionManager.Build d1 data) /\
  result r2 = Return (ExecutionManager.Portal d1 data) /\
  result (GetPortalConstControl (after r2)) = Return data.
Proof.
  repeat split.
Qed.

(** *** Releasing *)

(** X1. On a reachable handle [ReleaseResources] returns normally and
    leaves no valid view: the three flags are false, the length is 0
    and both [PrepareForInput] and [PrepareForInPlace] throw the
    no-data error afterwards.  The manager itself is not deleted. *)
Theorem ReleaseResources_leaves_no_data (h : InternalStruct T) :
  reachable uninitialized h ->
  let r := ReleaseResources h in
  result r = Return tt /\
  UserPortalValid (after r) = false /\
  ControlArrayValid (after r) = false /\
  ExecutionArrayValid (after r) = false /\
  GetNumberOfValues (after r) = MkRun (Return 0) (after r) [] /\
  (ExecutionArray h <> None -> ExecutionArray (after r) <> None) /\
  (forall d,
     PrepareForInput d (after r)
       = MkRun (Raise (Throw NoDataWhenPrepareForInput)) (after r) []) /\
  (forall d,
     PrepareForInPlace d (after r)
       = MkRun (Raise (Throw NoDataWhenPrepareForInput)) (after r) []).
Proof.
  intros R. pose proof (reachable_manager_present h R) as P.
  unfold manager_present in P. revert P.
  by_state h; intros P;
    try (exfalso; apply P; reflexivity);
    repeat split; intros; try discriminate; try assumption.
Qed.

(** X2. On a reachable handle [ReleaseResourcesExecution] returns
    normally, clears the execution-valid flag and leaves the user portal,
    the control array and their flags alone; the length afterwards is
    the host length when a host view is valid and 0 otherwise; a second
    call does nothing. *)
Theorem ReleaseResourcesExecution_keeps_host_views (h : InternalStruct T) :
  reachable uninitialized h ->
  let r := ReleaseResourcesExecution h in
  result r = Return tt /\
  ExecutionArrayValid (after r) = false /\
  UserPortal (after r) = UserPortal h /\
  UserPortalValid (after r) = UserPortalValid h /\
  ControlArray (after r) = ControlArray h /\
  ControlArrayValid (after r) = ControlArrayValid h /\
  logical_length (after r)
    = (if UserPortalValid h || ControlArrayValid h
       then logical_length h else 0) /\
  ReleaseResourcesExecution (after r) = MkRun (Return tt) (after r) [].
Proof.
  intros R. pose proof (reachable_manager_present h R) as P.
  unfold manager_present, logical_length in *. revert P.
  by_state h; intros P;
    try (exfalso; apply P; reflexivity);
    repeat split.
Qed.

(** *** Preparing for output *)

(** X3. On a reachable handle with no manager yet, or whose manager is
    the one of device [d], [PrepareForOutput n d] (for a count
    [0 <= n]) returns a portal of device [d] over [n] values, marks the
    execution array valid and both host views invalid, keeps the control
    array's memory, and makes the length [n]. *)
Theorem PrepareForOutput_allocates
        (n : Id) (d : DeviceAdapterTag) (h : InternalStruct T) :
  reachable uninitialized h ->
  unbound_or_bound_to d h = true ->
  0 <= n ->
  let r := PrepareForOutput uninitialized n d h in
  (exists values,
     length values = Z.to_nat n /\
     result r = Return (ExecutionManager.Portal d values) /\
     ExecutionArray (after r) = Some (ExecutionManager.Build d values)) /\
  UserPortalValid (after r) = false /\
  ControlArrayValid (after r) = false /\
  ExecutionArrayValid (after r) = true /\
  ControlArray (after r) = ControlArray h /\
  GetNumberOfValues (after r) = MkRun (Return n) (after r) [].
Proof.
  intros R. pose proof (reachable_manager_present h R) as P.
  unfold manager_present, unbound_or_bound_to in P |- *. revert P.
  by_state h; intros P B N;
    try (exfalso; apply P; reflexivity);
    try rewrite B; eval_handle;
    (split; [exists (repeat uninitialized (Z.to_nat n)); split;
             [apply repeat_length | ] | ]);
    cbv [ExecutionManager.AllocateArrayForOutput
         ExecutionManager.GetPortalExecution ExecutionManager.Create
         ExecutionManager.Device ExecutionManager.Array
         ExecutionManager.GetNumberOfValues
         ExecutionManager.IsDeviceAdapter] in *;
    try (apply Nat.eqb_eq in B; subst d);
    repeat split;
    rewrite repeat_length, Z2Nat.id by assumption; reflexivity.
Qed.

(** X4. When the handle has a manager of another device,
    [PrepareForOutput n d] does not leave the control array invalid:
    [PrepareForDevice] synchronizes before it replaces the manager, so
    the control array holds what the old manager held and is valid
    again.  The length query then answers the old manager's length, and
    values written through the returned portal are not what the const
    control portal shows. *)
Theorem PrepareForOutput_on_other_device_revalidates_control
        (n : Id) (d : DeviceAdapterTag) (h : InternalStruct T)
        (m : ExecutionManager.ExecutionManagerType T) (written : list T) :
  ExecutionArray h = Some m ->
  ExecutionManager.IsDeviceAdapter m d = false ->
  let r := PrepareForOutput uninitialized n d h in
  events r = [RetrievedOutputData (ExecutionManager.Device m);
              ManagerDeleted (ExecutionManager.Device m);
              ManagerCreated d;
              AllocatedForOutput d n] /\
  UserPortalValid (after r) = false /\
  ControlArrayValid (after r) = true /\
  ControlArray (after r) = ExecutionManager.Array m /\
  ExecutionArrayValid (after r) = true /\
  result (GetNumberOfValues (after r))
    = Return (Z.of_nat (length (ExecutionManager.Array m))) /\
  result (GetPortalConstControl (write_ExecutionPortal written (after r)))
    = Return (ExecutionManager.Array m).
Proof.
  unfold write_ExecutionPortal.
  destruct h as [up upv ca cav ea eav]; cbn [ExecutionArray].
  intros -> B. eval_handle. rewrite B. eval_handle.
  repeat split.
Qed.

(** *** Preparing in place *)

(** X5. [PrepareForInPlace] throws the read-only error whenever the user
    portal is valid, even when the data is already on the device, and
    changes nothing.  On a handle whose only valid view is the control
    array it copies that array to the device once, returns a portal of
    device [d] over the same values, marks the execution array valid
    and the control array invalid without touching the control array's
    memory, and the length stays the same. *)
Theorem PrepareForInPlace_moves_control_array
        (d : DeviceAdapterTag) (h : InternalStruct T) :
  (UserPortalValid h = true ->
   kind InPlaceWithUserArrays = ReadOnlyError /\
   PrepareForInPlace d h = MkRun (Raise (Throw InPlaceWithUserArrays)) h []) /\
  (UserPortalValid h = false -> ControlArrayValid h = true ->
   ExecutionArrayValid h = false ->
   let r := PrepareForInPlace d h in
   result r = Return (ExecutionManager.Portal d (ControlArray h)) /\
   copies_to_device (events r) = 1%nat /\
   ExecutionArray (after r)
     = Some (ExecutionManager.Build d (ControlArray h)) /\
   ExecutionArrayValid (after r) = true /\
   ControlArrayValid (after r) = false /\
   ControlArray (after r) = ControlArray h /\
   logical_length (after r) = logical_length h).
Proof.
  unfold logical_length.
  split.
  - by_state h; intros; try discriminate; split; reflexivity.
  - by_state h; intros; try discriminate;
      cbv [ExecutionManager.IsDeviceAdapter];
      try (destruct (Nat.eqb_spec (ExecutionManager.Device m) d);
           [subst d |]);
      eval_handle; repeat split.
Qed.

(** X6. What device code writes after [PrepareForInPlace] is what the
    host reads: after a host array was prepared in place and [values]
    were stored through the returned portal, the const control portal
    returns [values], retrieved from the device. *)
Theorem PrepareForInPlace_results_reach_host
        (d : DeviceAdapterTag) (h : InternalStruct T) (values : list T) :
  UserPortalValid h = false -> ControlArrayValid h = true ->
  ExecutionArrayValid h = false ->
  let h1 := write_ExecutionPortal values (after (PrepareForInPlace d h)) in
  GetPortalConstControl h1
    = MkRun (Return values)
            (set_ControlArrayValid true (set_ControlArray values h1))
            [RetrievedOutputData d].
Proof.
  unfold write_ExecutionPortal.
  by_state h; intros; try discriminate;
    cbv [ExecutionManager.IsDeviceAdapter];
    try (destruct (Nat.eqb_spec (ExecutionManager.Device m) d);
         [subst d |]);
    eval_handle; reflexivity.
Qed.

(** *** Host writes and the device copy *)

(** X7. Handing out the mutable control portal drops the device copy:
    on a reachable handle whose control array is valid,
    [GetPortalControl] returns the control array's values and clears the
    execution-valid flag, so that after the caller stored [values]
    through the portal a [PrepareForInput] copies again, exactly once,
    and the device portal shows [values]. *)
Theorem GetPortalControl_forces_new_copy
        (d : DeviceAdapterTag) (h : InternalStruct T) (values : list T) :
  reachable uninitialized h ->
  UserPortalValid h = false -> ControlArrayValid h = true ->
  let r := GetPortalControl h in
  let r' := PrepareForInput d (write_ControlPortal values (after r)) in
  result r = Return (ControlArray h) /\
  ExecutionArrayValid (after r) = false /\
  result r' = Return (ExecutionManager.Portal d values) /\
  copies_to_device (events r') = 1%nat.
Proof.
  intros R. pose proof (reachable_manager_present h R) as P.
  unfold manager_present, write_ControlPortal in *. revert P.
  by_state_and_manager h; intros P; intros; try discriminate;
    try (exfalso; apply P; reflexivity);
    by_device d; eval_manager; by_device d; repeat split.
Qed.

(** *** Logical constness *)

(** X8. [PrepareForInput] never changes the host side: whatever the
    state and the outcome, the user portal, the control array, their
    flags and the logical length are the same after the call. *)
Theorem PrepareForInput_keeps_host_side
        (d : DeviceAdapterTag) (h : InternalStruct T) :
  let r := PrepareForInput d h in
  UserPortal (after r) = UserPortal h /\
  UserPortalValid (after r) = UserPortalValid h /\
  ControlArray (after r) = ControlArray h /\
  ControlArrayValid (after r) = ControlArrayValid h /\
  logical_length (after r) = logical_length h.
Proof.
  unfold logical_length.
  by_state h; split_if; repeat split.
Qed.

(** X9. [GetPortalConstControl] preserves the execution array: the
    manager, the execution-valid flag and the user portal are the same
    after the call, and it never copies to the device.  On a reachable
    handle that has data it returns a portal whose number of values is
    the logical length, and the length is unchanged. *)
Theorem GetPortalConstControl_preserves_execution_array
        (h : InternalStruct T) :
  let r := GetPortalConstControl h in
  (ExecutionArray (after r) = ExecutionArray h /\
   ExecutionArrayValid (after r) = ExecutionArrayValid h /\
   UserPortal (after r) = UserPortal h /\
   UserPortalValid (after r) = UserPortalValid h /\
   copies_to_device (events r) = 0%nat) /\
  (reachable uninitialized h -> has_data h = true ->
   exists p,
     result r = Return p /\
     Z.of_nat (length p) = logical_length h /\
     logical_length (after r) = logical_length h).
Proof.
  split.
  - by_state h; repeat split.
  - intros R. pose proof (reachable_manager_present h R) as P.
    pose proof (reachable_exclusive_host_views h R) as X.
    unfold manager_present, exclusive_host_views, has_data, logical_length
      in *.
    revert P X.
    by_state h; intros P X D; try discriminate;
      try (exfalso; apply P; reflexivity);
      try (exfalso; apply X; split; reflexivity);
      eexists; repeat split.
Qed.

(** *** The user's array *)

(** X10. No call ever changes the user portal or makes it valid again
    once it was dropped, and the only calls that drop a valid user
    portal are [ReleaseResources] and [PrepareForOutput]. *)
Theorem user_portal_is_only_dropped (op : Op) (h : InternalStruct T) :
  let h' := after (call uninitialized op h) in
  UserPortal h' = UserPortal h /\
  (UserPortalValid h = false -> UserPortalValid h' = false) /\
  (UserPortalValid h = true -> UserPortalValid h' = false ->
   op = CallReleaseResources \/
   exists n d, op = CallPrepareForOutput n d).
Proof.
  destruct op; by_state h; split_if; repeat split; intros;
    try discriminate; try reflexivity;
    solve [left; reflexivity | right; eauto].
Qed.

(** *** Binding to a device *)

(** X11. On a reachable handle [PrepareForDevice d] returns normally and
    leaves a manager of device [d]; when the manager already is the one
    of [d] nothing changes and no call is made on it.  The user portal
    and its flag are kept, and when the handle has data the logical
    length and what the const control portal returns are the same as
    before the call: rebinding loses no data. *)
Theorem PrepareForDevice_binds_and_keeps_data
        (d : DeviceAdapterTag) (h : InternalStruct T) :
  reachable uninitialized h ->
  let r := PrepareForDevice d h in
  result r = Return tt /\
  (exists m, ExecutionArray (after r) = Some m /\
             ExecutionManager.Device m = d) /\
  (forall m, ExecutionArray h = Some m -> ExecutionManager.Device m = d ->
             r = MkRun (Return tt) h []) /\
  UserPortal (after r) = UserPortal h /\
  UserPortalValid (after r) = UserPortalValid h /\
  (has_data h = true ->
   logical_length (after r) = logical_length h /\
   result (GetPortalConstControl (after r))
     = result (GetPortalConstControl h)).
Proof.
  intros R. pose proof (reachable_manager_present h R) as P.
  pose proof (reachable_exclusive_host_views h R) as X.
  unfold manager_present, exclusive_host_views, has_data, logical_length in *.
  revert P X.
  by_state_and_manager h; intros P X;
    try (exfalso; apply P; reflexivity);
    try (exfalso; apply X; split; reflexivity);
    by_device d; eval_manager;
    repeat split; intros; try discriminate; eauto;
    match goal with
    | H : Some _ = Some _ |- _ =>
        injection H as <-; cbn in *; congruence
    end.
Qed.

(** *** Synchronizing *)

(** X12. [SyncControlArray] does nothing when a host view is valid.  On
    a reachable handle it can only fail by dereferencing a missing
    manager; when it returns, exactly one of the user portal and the
    control array is valid, the manager and the execution-valid flag
    are untouched, and a second call does nothing. *)
Theorem SyncControlArray_validates_one_host_view (h : InternalStruct T) :
  reachable uninitialized h ->
  let r := SyncControlArray h in
  (UserPortalValid h || ControlArrayValid h = true ->
   r = MkRun (Return tt) h []) /\
  (result r = Return tt \/
   result r = Raise NullDereference /\ ExecutionArray h = None /\
   after r = h) /\
  ExecutionArray (after r) = ExecutionArray h /\
  ExecutionArrayValid (after r) = ExecutionArrayValid h /\
  (result r = Return tt ->
   xorb (UserPortalValid (after r)) (ControlArrayValid (after r)) = true /\
   SyncControlArray (after r) = MkRun (Return tt) (after r) []).
Proof.
  intros R.
  pose proof (reachable_exclusive_host_views h R) as X.
  unfold exclusive_host_views in *. revert X.
  by_state h; intros X;
    try (exfalso; apply X; split; reflexivity);
    repeat split; intros; try discriminate; auto.
Qed.

(** *** More on Shrink *)

(** X13. [Shrink] keeps the leading values: on a reachable handle that
    has data, when [Shrink n] returns (for a count [0 <= n]) the const
    control portal afterwards shows the first [n] values of what it
    showed before. *)
Theorem Shrink_keeps_leading_values
        (n : Id) (h : InternalStruct T) (p : list T) :
  reachable uninitialized h ->
  has_data h = true ->
  0 <= n ->
  result (Shrink n h) = Return tt ->
  result (GetPortalConstControl h) = Return p ->
  result (GetPortalConstControl (after (Shrink n h)))
    = Return (firstn (Z.to_nat n) p).
Proof.
  intros R. pose proof (reachable_manager_present h R) as P.
  pose proof (reachable_exclusive_host_views h R) as X.
  unfold manager_present, exclusive_host_views, has_data in *.
  revert P X.
  by_state_and_manager h; intros P X D N;
    try discriminate;
    try (exfalso; apply P; reflexivity);
    try (exfalso; apply X; split; reflexivity);
    cbv [Storage.Shrink Storage.GetNumberOfValues
         Storage.PortalGetNumberOfValues Storage.GetPortalConst];
    repeat match goal with
      | |- context [?a <? ?b] => destruct (Z.ltb_spec a b); eval_handle
      | |- context [?a =? ?b] => destruct (Z.eqb_spec a b); eval_handle
      end;
    eval_manager; intros S G; try discriminate;
    injection G as <-;
    try reflexivity;
    subst n; rewrite Nat2Z.id, firstn_all; reflexivity.
Qed.

(** X14. Shrinking in two steps is shrinking once: on a reachable handle
    without a valid user portal, for [0 <= k <= n <= length],
    [Shrink n] followed by [Shrink k] returns and leaves the state that
    [Shrink k] alone leaves. *)
Theorem Shrink_twice (n k : Id) (h : InternalStruct T) :
  reachable uninitialized h ->
  UserPortalValid h = false ->
  0 <= k <= n ->
  n <= logical_length h ->
  result (Shrink n h) = Return tt /\
  result (Shrink k (after (Shrink n h))) = Return tt /\
  after (Shrink k (after (Shrink n h))) = after (Shrink k h).
Proof.
  intros R. pose proof (reachable_manager_present h R) as P.
  unfold manager_present, logical_length in *. revert P.
  by_state_and_manager h; intros P U K N;
    try discriminate;
    try (exfalso; apply P; reflexivity);
    cbv [Storage.Shrink Storage.GetNumberOfValues
         Storage.PortalGetNumberOfValues] in *;
    repeat (match goal with
      | |- context [?a <? ?b] => destruct (Z.ltb_spec a b); eval_handle
      | |- context [?a =? ?b] => destruct (Z.eqb_spec a b); eval_handle
      end; eval_manager);
    repeat split; try reflexivity;
    try (exfalso; rewrite ?length_firstn in *; lia);
    try (assert (E : k = n) by (rewrite ?length_firstn in *; lia);
         clear - E; rewrite E; reflexivity);
    rewrite ?firstn_firstn, ?Nat.min_l by lia; reflexivity.
Qed.

(** *** Transfers *)

(** X15. No call copies to the device more than once or retrieves from
    it more than once.  No call copies to the device when the execution
    array is already valid, and none but [PrepareForOutput] retrieves
    from the device when a host view is valid. *)
Theorem transfers_are_elided (op : Op) (h : InternalStruct T) :
  let ev := events (call uninitialized op h) in
  (copies_to_device ev <= 1)%nat /\
  (length (filter is_retrieval ev) <= 1)%nat /\
  (ExecutionArrayValid h = true -> copies_to_device ev = 0%nat) /\
  (UserPortalValid h || ControlArrayValid h = true ->
   (forall n d, op <> CallPrepareForOutput n d) ->
   filter is_retrieval ev = []).
Proof.
  destruct op; by_state h; split_if; cbn;
    repeat split; intros; try discriminate; try lia; try reflexivity;
    match goal with
    | H : forall n d, _ <> _ |- _ => exfalso; eapply H; reflexivity
    end.
Qed.

(** *** The mirrored user array *)

Lemma call_keeps_user_mirror_length (op : Op) (h : InternalStruct T) :
  (UserPortalValid h = true -> ExecutionArrayValid h = true ->
   exists m, ExecutionArray h = Some m /\
             length (ExecutionManager.Array m) = length (UserPortal h)) ->
  let h' := after (call uninitialized op h) in
  UserPortalValid h' = true -> ExecutionArrayValid h' = true ->
  exists m, ExecutionArray h' = Some m /\
            length (ExecutionManager.Array m) = length (UserPortal h').
Proof.
  destruct op; by_state_and_manager h;
    cbv [Storage.Shrink Storage.GetNumberOfValues
         Storage.PortalGetNumberOfValues];
    repeat (match goal with
      | |- context [?a <? ?b] => destruct (Z.ltb_spec a b)
      | |- context [?a =? ?b] => destruct (Z.eqb_spec a b)
      | |- context [Nat.eqb ?x ?y] => destruct (Nat.eqb_spec x y)
      end; eval_handle; eval_manager);
    intros IH U V; try discriminate;
    solve [ eexists; split; reflexivity
          | apply IH; reflexivity
          | destruct (IH eq_refl eq_refl) as [? [? ?]]; discriminate ].
Qed.

(** X16. On every reachable handle, while the user portal and the
    execution array are both valid the execution array has as many
    values as the user's array. *)
Theorem user_mirror_has_same_length (h : InternalStruct T) :
  reachable uninitialized h ->
  UserPortalValid h = true -> ExecutionArrayValid h = true ->
  exists m, ExecutionArray h = Some m /\
            length (ExecutionManager.Array m) = length (UserPortal h).
Proof.
  induction 1 as [ | | | op h _ IH | h values _ IH _ | h m values _ IH E L ].
  - intros H; discriminate.
  - intros _ H; discriminate.
  - intros H; discriminate.
  - now apply call_keeps_user_mirror_length.
  - exact IH.
  - cbn. intros U V. destruct (IH U V) as [m' [E' L']].
    rewrite E in E'. injection E' as <-.
    eexists; split; [reflexivity |]. cbn. congruence.
Qed.


End Properties.


(** ** The statements at concrete handles *)

Lemma reachable_device_only_handle : reachable 0 device_only_handle.
Proof.
  exact (reach_call 0 (CallPrepareForOutput 2 0%nat) _ (reach_default 0)).
Defined.

Lemma reachable_mirrored_handle : reachable 0 mirrored_handle.
Proof.
  exact (reach_call 0 (CallPrepareForInput 0%nat) _ (reach_storage 0 [1; 2; 3])).
Defined.

Lemma reachable_user_handle : reachable 0 user_handle.
Proof.
  exact (reach_userData 0 [1; 2; 3]).
Defined.

(** A handle whose only valid view is the device one is reachable,
    neither of its host views is valid, and [GetPortalControl] returns a
    portal on it instead of throwing the no-data error. *)
Lemma GetPortalControl_device_only_returns :
  reachable 0 device_only_handle /\
  UserPortalValid device_only_handle = false /\
  ControlArrayValid device_only_handle = false /\
  ExecutionArrayValid device_only_handle = true /\
  result (GetPortalControl device_only_handle) = Return [0; 0] /\
  ~ (exists e, result (GetPortalControl device_only_handle) = Raise (Throw e) /\
               kind e = NoDataError).
Proof.
  repeat split.
  - exact (reach_call 0 (CallPrepareForOutput 2 0%nat) _ (reach_default 0)).
  - intros [e [H _]]. vm_compute in H. discriminate.
Qed.

Lemma GetPortalControl_synchronizes_witness :
  reachable 0 device_only_handle /\
  exists m,
    ExecutionArray device_only_handle = Some m /\
    GetPortalControl device_only_handle =
      MkRun (Return (ExecutionManager.Array m))
            (MkInternals (UserPortal device_only_handle) false
               (ExecutionManager.Array m) true
               (Some (ExecutionManager.ReleaseResources m)) false)
            [RetrievedOutputData (ExecutionManager.Device m);
             ReleasedExecution (ExecutionManager.Device m)].
Proof.
  split; [exact reachable_device_only_handle |].
  apply (GetPortalControl_synchronizes 0 device_only_handle
           reachable_device_only_handle); reflexivity.
Defined.

(** C2 (behaviour of the code). Host data [1; 2; 3] is prepared on
    device 0 and then on device 1: the first call creates the manager for device
    0 and copies; the second call deletes and creates nothing, the
    manager is still the one of device 0 and so is the accessor
    returned; the const control portal still gives [1; 2; 3]. *)
Theorem PrepareForInput_second_device_keeps_first_manager :
  let r1 := PrepareForInput 0%nat host_handle in
  let r2 := PrepareForInput 1%nat (after r1) in
  events r1 = [ManagerCreated 0%nat; LoadedForInput 0%nat] /\
  events r2 = [] /\
  ~ In (ManagerDeleted 0%nat) (events r1 ++ events r2) /\
  ~ In (ManagerCreated 1%nat) (events r1 ++ events r2) /\
  ExecutionArray (after r2) = Some (ExecutionManager.Build 0%nat [1; 2; 3]) /\
  result r2 = Return (ExecutionManager.Portal 0%nat [1; 2; 3]) /\
  result (GetPortalConstControl (after r2)) = Return [1; 2; 3].
Proof.
  repeat split; try reflexivity;
    cbn; intros [H | [H | []]]; discriminate.
Qed.

(** A negative count is below every length, so [Shrink] takes its
    truncating branch; on a default-constructed handle no view is valid,
    nothing is truncated, the length stays 0 and the closing
    [VTKM_ASSERT_CONT] fails: the length is not the count asked for. *)
Lemma Shrink_negative_count_fails_assertion :
  reachable 0 (@ArrayHandle_default Z) /\
  -1 < logical_length (@ArrayHandle_default Z) /\
  UserPortalValid (@ArrayHandle_default Z) = false /\
  Shrink (-1) (@ArrayHandle_default Z)
    = MkRun (Raise AssertFailed) ArrayHandle_default [] /\
  result (GetNumberOfValues (after (Shrink (-1) (@ArrayHandle_default Z))))
    = Return 0 /\
  ~ (result (Shrink (-1) (@ArrayHandle_default Z)) = Return tt /\
     result (GetNumberOfValues (after (Shrink (-1) (@ArrayHandle_default Z))))
       = Return (-1)).
Proof.
  split; [exact (reach_default 0) |].
  split; [reflexivity |].
  split; [reflexivity |].
  split; [reflexivity |].
  split; [reflexivity |].
  intros [H _]. vm_compute in H. discriminate.
Qed.

Lemma Shrink_contract_witness :
  Shrink 5 mirrored_handle
    = MkRun (Raise (Throw ShrinkCannotGrow)) mirrored_handle [] /\
  Shrink 3 mirrored_handle = MkRun (Return tt) mirrored_handle [] /\
  Shrink 1 user_handle
    = MkRun (Raise (Throw ReadOnlyControlPortal)) user_handle [] /\
  (result (Shrink 2 mirrored_handle) = Return tt /\
   after (Shrink 2 mirrored_handle) = shrunk 2 mirrored_handle /\
   result (GetNumberOfValues (after (Shrink 2 mirrored_handle))) = Return 2).
Proof.
  destruct (Shrink_contract 0 5 mirrored_handle reachable_mirrored_handle)
    as [G _].
  destruct (Shrink_contract 0 3 mirrored_handle reachable_mirrored_handle)
    as [_ [E _]].
  destruct (Shrink_contract 0 1 user_handle reachable_user_handle)
    as [_ [_ [U _]]].
  destruct (Shrink_contract 0 2 mirrored_handle reachable_mirrored_handle)
    as [_ [_ [_ S]]].
  split; [| split; [| split]].
  - apply G. reflexivity.
  - apply E. reflexivity.
  - apply U; reflexivity.
  - apply S; [split; [discriminate | reflexivity] | reflexivity].
Defined.

Lemma GetNumberOfValues_logical_length_witness :
  GetNumberOfValues device_only_handle
    = MkRun (Return (logical_length device_only_handle)) device_only_handle [].
Proof.
  apply (GetNumberOfValues_logical_length 0 device_only_handle).
  exact reachable_device_only_handle.
Defined.

Lemma throw_leaves_state_untouched_witness :
  result (call 0 (CallShrink 5) host_handle) = Raise (Throw ShrinkCannotGrow) /\
  after (call 0 (CallShrink 5) host_handle) = host_handle.
Proof.
  split; [reflexivity |].
  apply (throw_leaves_state_untouched 0 (CallShrink 5) host_handle
           ShrinkCannotGrow).
  reflexivity.
Defined.

Lemma UserPortal_ControlArray_never_both_valid_witness :
  ~ (UserPortalValid mirrored_handle = true /\
     ControlArrayValid mirrored_handle = true).
Proof.
  apply (UserPortal_ControlArray_never_both_valid 0 mirrored_handle).
  exact reachable_mirrored_handle.
Defined.

Lemma ExecutionArrayValid_implies_manager_witness :
  ExecutionArrayValid device_only_handle = true /\
  exists m, ExecutionArray device_only_handle = Some m.
Proof.
  split; [reflexivity |].
  apply (ExecutionArrayValid_implies_manager 0 device_only_handle).
  - exact reachable_device_only_handle.
  - reflexivity.
Defined.

(** ** The list-tag unit test's comparison *)

Lemma static_cast_int_small (z : Z) :
  0 <= z < 2 ^ 31 -> UnitTestListTag.static_cast_int z = z.
Proof.
  intros H. unfold UnitTestListTag.static_cast_int.
  rewrite Z.mod_small; lia.
Qed.

Lemma CheckSame_loop_passes (expected found : list Z) (count index : nat) :
  UnitTestListTag.CheckSame_loop expected found index count = None <->
  (forall i, (index <= i < index + count)%nat ->
             nth i expected 0 = nth i found 0).
Proof.
  revert index. induction count as [| count IH]; intros index; cbn.
  - split; [intros _ i H; lia | reflexivity].
  - destruct (Z.eqb_spec (nth index expected 0) (nth index found 0)) as [E | E].
    + rewrite IH. split.
      * intros H i Hi. destruct (Nat.eq_dec i index) as [-> | Ne];
          [exact E | apply H; lia].
      * intros H i Hi. apply H; lia.
    + split; [discriminate |].
      intros H. exfalso. apply E, H. lia.
Qed.

(** X17. For vectors whose sizes fit in an [int], [CheckSame] passes
    exactly when [found] holds the expected components in the expected
    order, and it reports a wrong number of items exactly when the sizes
    differ. *)
Theorem CheckSame_passes_iff_same (expected found : list Z) :
  Z.of_nat (length expected) < 2 ^ 31 ->
  Z.of_nat (length found) < 2 ^ 31 ->
  (UnitTestListTag.CheckSame expected found = None <-> found = expected) /\
  (UnitTestListTag.CheckSame expected found
     = Some "Got wrong number of items."%string <->
   length found <> length expected).
Proof.
  intros He Hf. unfold UnitTestListTag.CheckSame.
  rewrite static_cast_int_small by lia.
  destruct (Z.eqb_spec (Z.of_nat (length found)) (Z.of_nat (length expected)))
    as [E | E].
  - apply Nat2Z.inj in E. split.
    + rewrite CheckSame_loop_passes. split.
      * intros H. apply (nth_ext found expected 0 0 E).
        intros i Hi. symmetry. apply H. lia.
      * intros ->. reflexivity.
    + split; [| intros H; contradiction].
      destruct (UnitTestListTag.CheckSame_loop expected found 0
                  (length expected)) eqn:L; [| discriminate].
      assert (s = "Got wrong type."%string) as ->.
      { clear - L. revert L. generalize 0%nat.
        induction (length expected) as [| c IH]; cbn; intros i L;
          [discriminate |].
        destruct (nth i expected 0 =? nth i found 0);
          [eapply IH; eassumption | congruence]. }
      discriminate.
  - split.
    + split; [discriminate |].
      intros ->. contradiction E; reflexivity.
    + split; [intros _ H; apply E; now rewrite H | reflexivity].
Qed.

Lemma CheckSame_passes_iff_same_witness :
  UnitTestListTag.CheckSame [31; 32; 33; 11] [31; 32; 33; 11] = None.
Proof.
  apply (CheckSame_passes_iff_same [31; 32; 33; 11] [31; 32; 33; 11]).
  - reflexivity.
  - reflexivity.
  - reflexivity.
Defined.

(** ** Further statements at concrete handles *)

Lemma reachable_user_mirrored_handle : reachable 0 user_mirrored_handle.
Proof.
  exact (reach_call 0 (CallPrepareForInput 0%nat) _ reachable_user_handle).
Defined.

Lemma ReleaseResources_leaves_no_data_witness :
  result (ReleaseResources mirrored_handle) = Return tt /\
  GetNumberOfValues (after (ReleaseResources mirrored_handle))
    = MkRun (Return 0) (after (ReleaseResources mirrored_handle)) [].
Proof.
  destruct (ReleaseResources_leaves_no_data 0 mirrored_handle
              reachable_mirrored_handle) as [A [_ [_ [_ [B _]]]]].
  split; [exact A | exact B].
Defined.

Lemma ReleaseResourcesExecution_keeps_host_views_witness :
  result (ReleaseResourcesExecution mirrored_handle) = Return tt /\
  ExecutionArrayValid (after (ReleaseResourcesExecution mirrored_handle))
    = false.
Proof.
  destruct (ReleaseResourcesExecution_keeps_host_views 0 mirrored_handle
              reachable_mirrored_handle) as [A [B _]].
  split; [exact A | exact B].
Defined.

Lemma PrepareForOutput_allocates_witness :
  GetNumberOfValues (after (PrepareForOutput 0 2 0%nat host_handle))
    = MkRun (Return 2) (after (PrepareForOutput 0 2 0%nat host_handle)) [].
Proof.
  apply (PrepareForOutput_allocates 0 2 0%nat host_handle).
  - exact (reach_storage 0 [1; 2; 3]).
  - reflexivity.
  - discriminate.
Defined.

Lemma PrepareForOutput_on_other_device_revalidates_control_witness :
  ControlArrayValid (after (PrepareForOutput 0 2 1%nat mirrored_handle)) = true /\
  result (GetNumberOfValues (after (PrepareForOutput 0 2 1%nat mirrored_handle)))
    = Return 3.
Proof.
  destruct (PrepareForOutput_on_other_device_revalidates_control
              0 2 1%nat mirrored_handle
              (ExecutionManager.Build 0%nat [1; 2; 3]) [9; 9]
              eq_refl eq_refl) as [_ [_ [A [_ [_ [B _]]]]]].
  split; [exact A | exact B].
Defined.

Lemma PrepareForInPlace_moves_control_array_witness :
  PrepareForInPlace 0%nat user_handle
    = MkRun (Raise (Throw InPlaceWithUserArrays)) user_handle [] /\
  result (PrepareForInPlace 0%nat host_handle)
    = Return (ExecutionManager.Portal 0%nat [1; 2; 3]).
Proof.
  destruct (PrepareForInPlace_moves_control_array 0%nat user_handle)
    as [A _].
  destruct (PrepareForInPlace_moves_control_array 0%nat host_handle)
    as [_ B].
  split.
  - apply A. reflexivity.
  - apply B; reflexivity.
Defined.

Lemma PrepareForInPlace_results_reach_host_witness :
  result (GetPortalConstControl
            (write_ExecutionPortal [7; 8; 9]
               (after (PrepareForInPlace 0%nat host_handle))))
    = Return [7; 8; 9].
Proof.
  rewrite (PrepareForInPlace_results_reach_host 0%nat host_handle [7; 8; 9]
             eq_refl eq_refl eq_refl).
  reflexivity.
Defined.

Lemma GetPortalControl_forces_new_copy_witness :
  result (PrepareForInput 0%nat
            (write_ControlPortal [4; 5; 6]
               (after (GetPortalControl mirrored_handle))))
    = Return (ExecutionManager.Portal 0%nat [4; 5; 6]).
Proof.
  apply (GetPortalControl_forces_new_copy 0 0%nat mirrored_handle [4; 5; 6]).
  - exact reachable_mirrored_handle.
  - reflexivity.
  - reflexivity.
Defined.

Lemma GetPortalConstControl_preserves_execution_array_witness :
  exists p,
    result (GetPortalConstControl device_only_handle) = Return p /\
    Z.of_nat (length p) = logical_length device_only_handle /\
    logical_length (after (GetPortalConstControl device_only_handle))
      = logical_length device_only_handle.
Proof.
  apply (GetPortalConstControl_preserves_execution_array 0 device_only_handle).
  - exact reachable_device_only_handle.
  - reflexivity.
Defined.

Lemma user_portal_is_only_dropped_witness :
  CallPrepareForOutput 2 0%nat = CallReleaseResources \/
  exists n d, CallPrepareForOutput 2 0%nat = CallPrepareForOutput n d.
Proof.
  apply (user_portal_is_only_dropped 0 (CallPrepareForOutput 2 0%nat)
           user_handle); reflexivity.
Defined.

Lemma PrepareForDevice_binds_and_keeps_data_witness :
  result (PrepareForDevice 1%nat device_only_handle) = Return tt /\
  result (GetPortalConstControl
            (after (PrepareForDevice 1%nat device_only_handle)))
    = result (GetPortalConstControl device_only_handle).
Proof.
  destruct (PrepareForDevice_binds_and_keeps_data 0 1%nat device_only_handle
              reachable_device_only_handle) as [A [_ [_ [_ [_ B]]]]].
  split; [exact A | apply B; reflexivity].
Defined.

Lemma SyncControlArray_validates_one_host_view_witness :
  xorb (UserPortalValid (after (SyncControlArray device_only_handle)))
       (ControlArrayValid (after (SyncControlArray device_only_handle)))
    = true.
Proof.
  apply (SyncControlArray_validates_one_host_view 0 device_only_handle).
  - exact reachable_device_only_handle.
  - reflexivity.
Defined.

Lemma Shrink_keeps_leading_values_witness :
  result (GetPortalConstControl (after (Shrink 2 mirrored_handle)))
    = Return [1; 2].
Proof.
  apply (Shrink_keeps_leading_values 0 2 mirrored_handle [1; 2; 3]).
  - exact reachable_mirrored_handle.
  - reflexivity.
  - discriminate.
  - reflexivity.
  - reflexivity.
Defined.

Lemma Shrink_twice_witness :
  after (Shrink 1 (after (Shrink 2 mirrored_handle)))
    = after (Shrink 1 mirrored_handle).
Proof.
  apply (Shrink_twice 0 2 1 mirrored_handle).
  - exact reachable_mirrored_handle.
  - reflexivity.
  - split; discriminate.
  - discriminate.
Defined.

Lemma transfers_are_elided_witness :
  copies_to_device (events (call 0 (CallPrepareForInPlace 1%nat) mirrored_handle))
    = 0%nat /\
  filter is_retrieval
    (events (call 0 (CallGetPortalControl) mirrored_handle)) = [].
Proof.
  split.
  - apply (transfers_are_elided 0 (CallPrepareForInPlace 1%nat) mirrored_handle).
    reflexivity.
  - apply (transfers_are_elided 0 CallGetPortalControl mirrored_handle).
    + reflexivity.
    + intros n d; discriminate.
Defined.

Lemma user_mirror_has_same_length_witness :
  exists m,
    ExecutionArray user_mirrored_handle = Some m /\
    length (ExecutionManager.Array m) = length (UserPortal user_mirrored_handle).
Proof.
  apply (user_mirror_has_same_length 0 user_mirrored_handle).
  - exact reachable_user_mirrored_handle.
  - reflexivity.
  - reflexivity.
Defined.
